(** * kindr: LocalAngularVelocity and the conversions from rotation derivatives

    A shallow embedding of
    [rotations/include/kindr/rotations/eigen/LocalAngularVelocity.hpp].

    Numbers.  The class and every conversion are templates over the primitive
    type [PrimType_] ([float] or [double]).  The finite values of [PrimType_]
    are modelled by the real numbers and the arithmetic on them is exact (no
    rounding, no overflow, no underflow).  The header forms one quotient, [1.0/(v*v*v)] in
    the rotation-vector conversion.  A quotient by zero is not a finite number:
    it is an infinity, and each component the header then computes from it is
    a sum of products of that infinity, none of them finite.  [quotient]
    answers [NotFinite] there, and a conversion returns a [Computed] value:
    either [Finite w], an angular velocity with real components, or
    [NotFinite].  No conversion raises an error; [Computed] has no such case.
    [convert_RotationVector_double] reads the same lines in binary64, where
    they can be evaluated at and next to the zero rotation vector.

    Types.  The usage convention ([RotationUsage]) is a template parameter of
    every class; here it is an index of every type, so that an ACTIVE and a
    PASSIVE value have different types, as in the header.

    What is not in the header.  The accessors of the rotation types are read
    as record fields.  The helpers of kindr that the header calls and that
    are defined elsewhere in the repository carry a comment that starts with
    "Modelled from the spec". *)

From Stdlib Require Import Floats.
From Stdlib Require Import Reals Lra Psatz RNsatz.

Open Scope R_scope.

(** The primitive type of the coordinates ([PrimType_], [Scalar]). *)
Definition Scalar : Type := R.

(** [enum RotationUsage] of kindr/rotations/RotationBase.hpp. *)
Inductive RotationUsage : Set := ACTIVE | PASSIVE.

(** ** Fixed-size matrices: the part of Eigen the header uses *)

Module Eigen.

(** [n] coefficients, the first one outermost. *)
Fixpoint tuple (A : Type) (n : nat) : Type :=
  match n with
  | O => unit
  | S m => (A * tuple A m)%type
  end.

(** [Eigen::Matrix<PrimType_, n, 1>]. *)
Definition Vector (n : nat) : Type := tuple Scalar n.

(** [Eigen::Matrix<PrimType_, Rows, Cols>], a tuple of rows. *)
Definition Matrix (Rows Cols : nat) : Type := tuple (Vector Cols) Rows.

Fixpoint map {A B : Type} {n : nat} (f : A -> B) : tuple A n -> tuple B n :=
  match n with
  | O => fun _ => tt
  | S m => fun t => (f (fst t), map f (snd t))
  end.

Fixpoint map2 {A B C : Type} {n : nat} (f : A -> B -> C)
  : tuple A n -> tuple B n -> tuple C n :=
  match n with
  | O => fun _ _ => tt
  | S m => fun s t => (f (fst s) (fst t), map2 f (snd s) (snd t))
  end.

(** [Matrix::Constant(a)]; [Zero()] is [Constant 0]. *)
Fixpoint Constant {A : Type} (n : nat) (a : A) : tuple A n :=
  match n with
  | O => tt
  | S m => (a, Constant m a)
  end.

Definition Zero (n : nat) : Vector n := Constant n 0.

(** Coefficient [i], counted from 0 ([operator()(i)]). *)
Fixpoint coeff {n : nat} (i : nat) : Vector n -> Scalar :=
  match n with
  | O => fun _ => 0
  | S m => fun t => match i with O => fst t | S j => coeff j (snd t) end
  end.

(** Row [i] of a matrix, and the coefficient [(i, j)] ([operator()(i, j)]). *)
Fixpoint row {Rows Cols : nat} (i : nat) : Matrix Rows Cols -> Vector Cols :=
  match Rows with
  | O => fun _ => Zero Cols
  | S m => fun t => match i with O => fst t | S j => row j (snd t) end
  end.

Definition at_ {Rows Cols : nat} (M : Matrix Rows Cols) (i j : nat) : Scalar :=
  coeff j (row i M).

(** [a.dot(b)]: the sum of the products of the coefficients. *)
Fixpoint dot {n : nat} : Vector n -> Vector n -> Scalar :=
  match n with
  | O => fun _ _ => 0
  | S m => fun a b => fst a * fst b + dot (snd a) (snd b)
  end.

Definition squaredNorm {n : nat} (v : Vector n) : Scalar := dot v v.

(** [v.norm()]: the square root of the sum of the squares. *)
Definition norm {n : nat} (v : Vector n) : Scalar := sqrt (squaredNorm v).

(** [M.transpose()]. *)
Fixpoint transpose {Rows Cols : nat} : Matrix Rows Cols -> Matrix Cols Rows :=
  match Cols with
  | O => fun _ => tt
  | S c => fun M => (map fst M, transpose (Cols := c) (map snd M))
  end.

(** [M * v], a matrix times a column vector. *)
Definition mulVec {Rows Cols : nat} (M : Matrix Rows Cols) (v : Vector Cols)
  : Vector Rows :=
  map (fun r => dot r v) M.

(** [A * B], the matrix product. *)
Definition mul {Rows Inner Cols : nat}
  (A : Matrix Rows Inner) (B : Matrix Inner Cols) : Matrix Rows Cols :=
  map (fun r => map (fun c => dot r c) (transpose B)) A.

(** [s * v] and [v * s], a scalar times a vector. *)
Definition scaleL {n : nat} (s : Scalar) (v : Vector n) : Vector n :=
  map (fun a => s * a) v.

Definition scaleR {n : nat} (v : Vector n) (s : Scalar) : Vector n :=
  map (fun a => a * s) v.

(** [s * M], a scalar times a matrix. *)
Definition scaleM {Rows Cols : nat} (s : Scalar) (M : Matrix Rows Cols)
  : Matrix Rows Cols :=
  map (scaleL s) M.

(** [a + b] and [a - b] on vectors, coefficient by coefficient. *)
Definition add {n : nat} (a b : Vector n) : Vector n := map2 Rplus a b.

Definition sub {n : nat} (a b : Vector n) : Vector n := map2 Rminus a b.

(** [A + B] on matrices, coefficient by coefficient. *)
Definition addM {Rows Cols : nat} (A B : Matrix Rows Cols) : Matrix Rows Cols :=
  map2 add A B.

(** [a.cross(b)], the cross product of two vectors of size 3. *)
Definition cross (a b : Vector 3) : Vector 3 :=
  (coeff 1 a * coeff 2 b - coeff 2 a * coeff 1 b,
   (coeff 2 a * coeff 0 b - coeff 0 a * coeff 2 b,
    (coeff 0 a * coeff 1 b - coeff 1 a * coeff 0 b, tt))).

(** [Matrix::Identity()] of size 3. *)
Definition Identity3 : Matrix 3 3 :=
  ((1, (0, (0, tt))), ((0, (1, (0, tt))), ((0, (0, (1, tt))), tt))).

End Eigen.

Declare Scope eigen_scope.
Delimit Scope eigen_scope with eigen.
Notation "[< x ; .. ; y >]" := (pair x .. (pair y tt) ..)
  (at level 0, x at level 99, y at level 99) : eigen_scope.
Open Scope eigen_scope.

Definition Vector3 : Type := Eigen.Vector 3.
Definition Vector4 : Type := Eigen.Vector 4.
Definition Matrix3x3 : Type := Eigen.Matrix 3 3.
Definition Matrix3x4 : Type := Eigen.Matrix 3 4.

(** ** Arithmetic that can leave the finite numbers *)

(** What a computation in [PrimType_] gives: a finite value, or a value that
    is not finite (an infinity or NaN). *)
Inductive Computed (A : Type) : Type :=
| Finite (a : A)
| NotFinite.
Arguments Finite {A} a.
Arguments NotFinite {A}.

(** [a / b] in [PrimType_]: a finite number unless [b] is zero. *)
Definition quotient (a b : Scalar) : Computed Scalar :=
  if Req_dec_T b 0 then NotFinite else Finite (a / b).

(** The rest of a computation: nothing finite comes out of a value that is
    not finite (the header only multiplies and adds after its quotient). *)
Definition bind {A B : Type} (o : Computed A) (f : A -> Computed B)
  : Computed B :=
  match o with
  | Finite a => f a
  | NotFinite => NotFinite
  end.

Notation "x <- o ;; k" := (bind o (fun x => k))
  (at level 61, o at next level, right associativity).

(** ** kindr/linear_algebra/LinearAlgebra.hpp *)

Module linear_algebra.

(** Modelled from the spec: [getSkewMatrixFromVector] is declared in
    kindr/linear_algebra/LinearAlgebra.hpp, which is not among the sources.
    The spec: "producing the 3x3 matrix S such that S.u = v x u for all u". *)
Definition getSkewMatrixFromVector (vec : Vector3) : Matrix3x3 :=
  let x := Eigen.coeff 0 vec in
  let y := Eigen.coeff 1 vec in
  let z := Eigen.coeff 2 vec in
  [< [< 0; - z; y >];
     [< z; 0; - x >];
     [< - y; x; 0 >] >].

(** Modelled from the spec: [getVectorFromSkewMatrix] is declared in
    kindr/linear_algebra/LinearAlgebra.hpp, which is not among the sources.
    The spec: "take the three independent off-diagonal entries,
    (S[2][1], S[0][2], S[1][0]), ignoring the redundant/negated mirror
    entries". *)
Definition getVectorFromSkewMatrix (matrix : Matrix3x3) : Vector3 :=
  [< Eigen.at_ matrix 2 1; Eigen.at_ matrix 0 2; Eigen.at_ matrix 1 0 >].

End linear_algebra.

(** ** The rotations and their time derivatives (read accessors only) *)

Module Quaternion.

(** kindr/quaternions/QuaternionEigen.hpp: a quaternion with the accessors
    [w()], [x()], [y()], [z()]. *)
Record t : Type := mk { w : Scalar; x : Scalar; y : Scalar; z : Scalar }.

(** Modelled from the spec: [Quaternion::vector()] is defined in
    kindr/quaternions/QuaternionEigen.hpp, which is not among the sources.
    The spec: "the derivative quaternion's (x,y,z,w)-ordered component
    vector". *)
Definition vector (q : t) : Vector4 := [< x q; y q; z q; w q >].

End Quaternion.

Module RotationQuaternion.

Record t (Usage_ : RotationUsage) : Type :=
  mk { toUnitQuaternion : Quaternion.t }.
Arguments mk {Usage_} _.
Arguments toUnitQuaternion {Usage_} _.

End RotationQuaternion.

Module RotationQuaternionDiff.

Record t (Usage_ : RotationUsage) : Type :=
  mk { toQuaternion : Quaternion.t }.
Arguments mk {Usage_} _.
Arguments toQuaternion {Usage_} _.

End RotationQuaternionDiff.

Module RotationMatrix.

Record t (Usage_ : RotationUsage) : Type :=
  mk { toImplementation : Matrix3x3 }.
Arguments mk {Usage_} _.
Arguments toImplementation {Usage_} _.

(** Modelled from the spec: [RotationMatrix::inverted()] is defined in
    kindr/rotations/eigen/RotationMatrix.hpp, which is not among the sources.
    The spec: "the inverse (transpose) of the passive rotation matrix". *)
Definition inverted {Usage_ : RotationUsage} (r : t Usage_) : t Usage_ :=
  mk (Eigen.transpose (toImplementation r)).

End RotationMatrix.

Module RotationMatrixDiff.

Record t (Usage_ : RotationUsage) : Type :=
  mk { toImplementation : Matrix3x3 }.
Arguments mk {Usage_} _.
Arguments toImplementation {Usage_} _.

End RotationMatrixDiff.

Module AngleAxis.

(** [angle()] and the axis [axis()]. *)
Record t (Usage_ : RotationUsage) : Type :=
  mk { angle : Scalar; axis : Vector3 }.
Arguments mk {Usage_} _ _.
Arguments angle {Usage_} _.
Arguments axis {Usage_} _.

End AngleAxis.

Module AngleAxisDiff.

(** The rate of the angle, [angle()], and the rate of the axis, [axis()]. *)
Record t (Usage_ : RotationUsage) : Type :=
  mk { angle : Scalar; axis : Vector3 }.
Arguments mk {Usage_} _ _.
Arguments angle {Usage_} _.
Arguments axis {Usage_} _.

End AngleAxisDiff.

Module RotationVector.

Record t (Usage_ : RotationUsage) : Type :=
  mk { vector : Vector3 }.
Arguments mk {Usage_} _.
Arguments vector {Usage_} _.

Definition x {Usage_ : RotationUsage} (r : t Usage_) : Scalar :=
  Eigen.coeff 0 (vector r).
Definition y {Usage_ : RotationUsage} (r : t Usage_) : Scalar :=
  Eigen.coeff 1 (vector r).
Definition z {Usage_ : RotationUsage} (r : t Usage_) : Scalar :=
  Eigen.coeff 2 (vector r).

End RotationVector.

Module RotationVectorDiff.

Record t (Usage_ : RotationUsage) : Type :=
  mk { x : Scalar; y : Scalar; z : Scalar }.
Arguments mk {Usage_} _ _ _.
Arguments x {Usage_} _.
Arguments y {Usage_} _.
Arguments z {Usage_} _.

End RotationVectorDiff.

Module EulerAnglesZyx.

(** Yaw (about z), pitch (about y) and roll (about x). *)
Record t (Usage_ : RotationUsage) : Type :=
  mk { yaw : Scalar; pitch : Scalar; roll : Scalar }.
Arguments mk {Usage_} _ _ _.
Arguments yaw {Usage_} _.
Arguments pitch {Usage_} _.
Arguments roll {Usage_} _.

End EulerAnglesZyx.

Module EulerAnglesZyxDiff.

Record t (Usage_ : RotationUsage) : Type :=
  mk { yaw : Scalar; pitch : Scalar; roll : Scalar }.
Arguments mk {Usage_} _ _ _.
Arguments yaw {Usage_} _.
Arguments pitch {Usage_} _.
Arguments roll {Usage_} _.

End EulerAnglesZyxDiff.

Module EulerAnglesXyz.

(** Roll (about x), pitch (about y) and yaw (about z). *)
Record t (Usage_ : RotationUsage) : Type :=
  mk { roll : Scalar; pitch : Scalar; yaw : Scalar }.
Arguments mk {Usage_} _ _ _.
Arguments roll {Usage_} _.
Arguments pitch {Usage_} _.
Arguments yaw {Usage_} _.

End EulerAnglesXyz.

Module EulerAnglesXyzDiff.

Record t (Usage_ : RotationUsage) : Type :=
  mk { roll : Scalar; pitch : Scalar; yaw : Scalar }.
Arguments mk {Usage_} _ _ _.
Arguments roll {Usage_} _.
Arguments pitch {Usage_} _.
Arguments yaw {Usage_} _.

End EulerAnglesXyzDiff.

(** ** class LocalAngularVelocity *)

Module LocalAngularVelocity.

(** [LocalAngularVelocity<PrimType_, Usage_>] derives privately from
    [Base = Eigen::Matrix<PrimType_, 3, 1>]: a value is its base vector, and
    the usage is a parameter of the type only.  [fromBase] is the explicit
    constructor from [const Base&]. *)
Record t (Usage_ : RotationUsage) : Type :=
  fromBase { toImplementation : Vector3 }.
Arguments fromBase {Usage_} _.
Arguments toImplementation {Usage_} _.

(** The usage a value is tagged with (its type's parameter). *)
Definition usage {Usage_ : RotationUsage} (_ : t Usage_) : RotationUsage :=
  Usage_.

(** The default constructor: [Base(Base::Zero())]. *)
Definition default {Usage_ : RotationUsage} : t Usage_ :=
  fromBase (Eigen.Zero 3).

(** The constructor with three components: [Base(x, y, z)]. *)
Definition fromComponents {Usage_ : RotationUsage} (x y z : Scalar)
  : t Usage_ :=
  fromBase [< x; y; z >].

(** [using Base::x], [using Base::y], [using Base::z]. *)
Definition x {Usage_ : RotationUsage} (v : t Usage_) : Scalar :=
  Eigen.coeff 0 (toImplementation v).
Definition y {Usage_ : RotationUsage} (v : t Usage_) : Scalar :=
  Eigen.coeff 1 (toImplementation v).
Definition z {Usage_ : RotationUsage} (v : t Usage_) : Scalar :=
  Eigen.coeff 2 (toImplementation v).

(** What [operator+=] and [operator-=] ask of their template parameter
    [Other_]: a member [toImplementation()] whose value can be added to a
    [Base]. *)
Class Other (Other_ : Type) : Type :=
  otherImplementation : Other_ -> Vector3.

(** A [LocalAngularVelocity] of any usage is such an [Other_]. *)
#[global] Instance Other_LocalAngularVelocity (OtherUsage_ : RotationUsage)
  : Other (t OtherUsage_) :=
  fun other => toImplementation other.

(** [operator+=]: [this->toImplementation() += other.toImplementation();
    return *this;].  The value returned is the new value of [*this]. *)
Definition operator_plus_eq {Usage_ : RotationUsage} {Other_ : Type}
  `{Other Other_} (this : t Usage_) (other : Other_) : t Usage_ :=
  fromBase (Eigen.add (toImplementation this) (otherImplementation other)).

(** [operator-=]: [this->toImplementation() -= other.toImplementation();
    return *this;]. *)
Definition operator_minus_eq {Usage_ : RotationUsage} {Other_ : Type}
  `{Other Other_} (this : t Usage_) (other : Other_) : t Usage_ :=
  fromBase (Eigen.sub (toImplementation this) (otherImplementation other)).

(** [setZero]: [Base::setZero(); return *this;]. *)
Definition setZero {Usage_ : RotationUsage} (this : t Usage_) : t Usage_ :=
  fromBase (Eigen.Zero 3).

(** Modelled from the spec: [operator+] is brought in by
    [using AngularVelocityBase<LocalAngularVelocity<PrimType_, Usage_>,
    Usage_>::operator+]; the base class is defined in
    kindr/rotations/RotationDiffBase.hpp, which is not among the sources.
    The spec: "return a new value whose components are the element-wise
    sum/difference; operate only between values of compatible usage
    convention". *)
Definition operator_plus {Usage_ : RotationUsage} (this other : t Usage_)
  : t Usage_ :=
  fromBase (Eigen.add (toImplementation this) (toImplementation other)).

(** Modelled from the spec: [operator-] of the same base class, as
    [operator_plus]. *)
Definition operator_minus {Usage_ : RotationUsage} (this other : t Usage_)
  : t Usage_ :=
  fromBase (Eigen.sub (toImplementation this) (toImplementation other)).

End LocalAngularVelocity.

Notation "a += b" := (LocalAngularVelocity.operator_plus_eq a b)
  (at level 70, no associativity).
Notation "a -= b" := (LocalAngularVelocity.operator_minus_eq a b)
  (at level 70, no associativity).

(** ** namespace internal: RotationDiffConversionTraits *)

(** The traits class [RotationDiffConversionTraits<Dest_, Diff_, Rotation_>]:
    a specialisation gives [convert(rotation, diff)].  There is no primary
    definition in the header: a triple without a specialisation does not
    compile, as a triple without an instance here has no [convert]. *)
Class RotationDiffConversionTraits (Dest_ Diff_ Rotation_ : Type) : Type :=
  convert : Rotation_ -> Diff_ -> Computed Dest_.

(** Unit quaternion and its derivative. *)
#[global] Instance convert_RotationQuaternion :
  RotationDiffConversionTraits (LocalAngularVelocity.t ACTIVE)
    (RotationQuaternionDiff.t ACTIVE) (RotationQuaternion.t ACTIVE) :=
  fun rquat rquatdiff =>
    let q := RotationQuaternion.toUnitQuaternion rquat in
    let H_bar : Matrix3x4 :=
      [< [< - Quaternion.x q; Quaternion.w q; Quaternion.z q; - Quaternion.y q >];
         [< - Quaternion.y q; - Quaternion.z q; Quaternion.w q; Quaternion.x q >];
         [< - Quaternion.z q; Quaternion.y q; - Quaternion.x q; Quaternion.w q >] >] in
    Finite (LocalAngularVelocity.fromBase
            (Eigen.mulVec (Eigen.scaleM 2 H_bar)
               (Quaternion.vector (RotationQuaternionDiff.toQuaternion rquatdiff)))).

(** Active rotation matrix and its derivative: [R * dR'].  The header's
    comment: B_w_IB = (R_IB*dR_IB'). *)
#[global] Instance convert_RotationMatrix_active :
  RotationDiffConversionTraits (LocalAngularVelocity.t ACTIVE)
    (RotationMatrixDiff.t ACTIVE) (RotationMatrix.t ACTIVE) :=
  fun rotationMatrix rotationMatrixDiff =>
    Finite (LocalAngularVelocity.fromBase
            (linear_algebra.getVectorFromSkewMatrix
               (Eigen.mul (RotationMatrix.toImplementation rotationMatrix)
                  (Eigen.transpose
                     (RotationMatrixDiff.toImplementation rotationMatrixDiff))))).

(** Passive rotation matrix and its derivative: [inverted(C) * dC].  The
    header's comment: B_w_IB = (C_IB'*dC_IB). *)
#[global] Instance convert_RotationMatrix_passive :
  RotationDiffConversionTraits (LocalAngularVelocity.t ACTIVE)
    (RotationMatrixDiff.t PASSIVE) (RotationMatrix.t PASSIVE) :=
  fun rotationMatrix rotationMatrixDiff =>
    Finite (LocalAngularVelocity.fromBase
            (linear_algebra.getVectorFromSkewMatrix
               (Eigen.mul
                  (RotationMatrix.toImplementation
                     (RotationMatrix.inverted rotationMatrix))
                  (RotationMatrixDiff.toImplementation rotationMatrixDiff)))).

(** Angle-axis and its derivative. *)
#[global] Instance convert_AngleAxis :
  RotationDiffConversionTraits (LocalAngularVelocity.t ACTIVE)
    (AngleAxisDiff.t ACTIVE) (AngleAxis.t ACTIVE) :=
  fun angleAxis angleAxisDiff =>
    Finite (LocalAngularVelocity.fromBase
            (Eigen.add
               (Eigen.add
                  (Eigen.scaleR (AngleAxis.axis angleAxis)
                     (AngleAxisDiff.angle angleAxisDiff))
                  (Eigen.scaleR (AngleAxisDiff.axis angleAxisDiff)
                     (sin (AngleAxis.angle angleAxis))))
               (Eigen.scaleR
                  (Eigen.mulVec
                     (linear_algebra.getSkewMatrixFromVector
                        (AngleAxis.axis angleAxis))
                     (AngleAxisDiff.axis angleAxisDiff))
                  (1 - cos (AngleAxis.angle angleAxis))))).

(** Rotation vector and its derivative (the tested, expanded formula; the
    formula the header keeps in a comment as "not tested" is not code). *)
#[global] Instance convert_RotationVector :
  RotationDiffConversionTraits (LocalAngularVelocity.t ACTIVE)
    (RotationVectorDiff.t ACTIVE) (RotationVector.t ACTIVE) :=
  fun rotationVector rotationVectorDiff =>
    let v := Eigen.norm (RotationVector.vector rotationVector) in
    let v1 := RotationVector.x rotationVector in
    let v2 := RotationVector.y rotationVector in
    let v3 := RotationVector.z rotationVector in
    let dv1 := RotationVectorDiff.x rotationVectorDiff in
    let dv2 := RotationVectorDiff.y rotationVectorDiff in
    let dv3 := RotationVectorDiff.z rotationVectorDiff in
    t2 <- quotient 1 (v*v*v) ;;
    let t3 := cos v in
    let t4 := sin v in
    let t5 := v1*v1 in
    let t6 := v1*v2 in
    let t7 := v*v in
    let t8 := t4*t7 in
    let t9 := v2*v2 in
    let t10 := v2*v3 in
    let t11 := v1*v3 in
    let t12 := t3*v2 in
    let t13 := v3*v3 in
    let w1 := dv3*t2*(v*(t11+t12-v2)-t4*v1*v3)+dv1*t2*(t8-t4*t5+t5*v)+dv2*t2*(v*(t6+v3-t3*v3)-t4*v1*v2) in
    let w2 := dv1*t2*(v*(t6-v3+t3*v3)-t4*v1*v2)+dv2*t2*(t8-t4*t9+t9*v)+dv3*t2*(v*(t10+v1-t3*v1)-t4*v2*v3) in
    let w3 := dv2*t2*(v*(t10-v1+t3*v1)-t4*v2*v3)+dv1*t2*(v*(t11-t12+v2)-t4*v1*v3)+dv3*t2*(t8-t4*t13+t13*v) in
    Finite (LocalAngularVelocity.fromComponents w1 w2 w3).

(** Euler angles ZYX and their derivative. *)
#[global] Instance convert_EulerAnglesZyx :
  RotationDiffConversionTraits (LocalAngularVelocity.t ACTIVE)
    (EulerAnglesZyxDiff.t ACTIVE) (EulerAnglesZyx.t ACTIVE) :=
  fun eulerAngles eulerAnglesDiff =>
    let phi := EulerAnglesZyx.roll eulerAngles in
    let theta := EulerAnglesZyx.pitch eulerAngles in
    let dphi := EulerAnglesZyxDiff.roll eulerAnglesDiff in
    let dtheta := EulerAnglesZyxDiff.pitch eulerAnglesDiff in
    let dpsi := EulerAnglesZyxDiff.yaw eulerAnglesDiff in
    let t2 := sin phi in
    let t3 := cos phi in
    let t4 := cos theta in
    Finite (LocalAngularVelocity.fromComponents
            (dphi-dpsi*sin theta) (dtheta*t3+dpsi*t2*t4) (-dtheta*t2+dpsi*t3*t4)).

(** Euler angles XYZ and their derivative. *)
#[global] Instance convert_EulerAnglesXyz :
  RotationDiffConversionTraits (LocalAngularVelocity.t ACTIVE)
    (EulerAnglesXyzDiff.t ACTIVE) (EulerAnglesXyz.t ACTIVE) :=
  fun eulerAngles eulerAnglesDiff =>
    let beta := EulerAnglesXyz.pitch eulerAngles in
    let gamma := EulerAnglesXyz.yaw eulerAngles in
    let dalpha := EulerAnglesXyzDiff.roll eulerAnglesDiff in
    let dbeta := EulerAnglesXyzDiff.pitch eulerAnglesDiff in
    let dgamma := EulerAnglesXyzDiff.yaw eulerAnglesDiff in
    let t2 := cos gamma in
    let t3 := cos beta in
    let t4 := sin gamma in
    Finite (LocalAngularVelocity.fromComponents
            (dbeta*t4+dalpha*t2*t3) (dbeta*t2-dalpha*t3*t4) (dgamma+dalpha*sin beta)).

(** The constructor of [LocalAngularVelocity] from a rotation and the time
    derivative of a rotation: [Base(RotationDiffConversionTraits<
    LocalAngularVelocity, OtherDerived_, RotationDerived_>::convert(rotation,
    other))]. *)
Definition fromRotationDiff {Dest_ Diff_ Rotation_ : Type}
  `{RotationDiffConversionTraits Dest_ Diff_ Rotation_}
  (rotation : Rotation_) (other : Diff_) : Computed Dest_ :=
  convert rotation other.

(** ** The seven supported pairs of a rotation and its derivative *)

(** The triples for which the header specialises
    [RotationDiffConversionTraits], each with its two arguments. *)
Inductive RotationAndDiff : Type :=
| OfRotationQuaternion (rquat : RotationQuaternion.t ACTIVE)
    (rquatdiff : RotationQuaternionDiff.t ACTIVE)
| OfRotationMatrixActive (rotationMatrix : RotationMatrix.t ACTIVE)
    (rotationMatrixDiff : RotationMatrixDiff.t ACTIVE)
| OfRotationMatrixPassive (rotationMatrix : RotationMatrix.t PASSIVE)
    (rotationMatrixDiff : RotationMatrixDiff.t PASSIVE)
| OfAngleAxis (angleAxis : AngleAxis.t ACTIVE)
    (angleAxisDiff : AngleAxisDiff.t ACTIVE)
| OfRotationVector (rotationVector : RotationVector.t ACTIVE)
    (rotationVectorDiff : RotationVectorDiff.t ACTIVE)
| OfEulerAnglesZyx (eulerAngles : EulerAnglesZyx.t ACTIVE)
    (eulerAnglesDiff : EulerAnglesZyxDiff.t ACTIVE)
| OfEulerAnglesXyz (eulerAngles : EulerAnglesXyz.t ACTIVE)
    (eulerAnglesDiff : EulerAnglesXyzDiff.t ACTIVE).

(** The conversion the pair selects. *)
Definition convertPair (p : RotationAndDiff)
  : Computed (LocalAngularVelocity.t ACTIVE) :=
  match p with
  | OfRotationQuaternion r d => convert r d
  | OfRotationMatrixActive r d => convert r d
  | OfRotationMatrixPassive r d => convert r d
  | OfAngleAxis r d => convert r d
  | OfRotationVector r d => convert r d
  | OfEulerAnglesZyx r d => convert r d
  | OfEulerAnglesXyz r d => convert r d
  end.

(** Every component of the derivative is zero. *)
Definition zeroDerivative (p : RotationAndDiff) : Prop :=
  match p with
  | OfRotationQuaternion _ d =>
      let dq := RotationQuaternionDiff.toQuaternion d in
      Quaternion.w dq = 0 /\ Quaternion.x dq = 0
      /\ Quaternion.y dq = 0 /\ Quaternion.z dq = 0
  | OfRotationMatrixActive _ d =>
      RotationMatrixDiff.toImplementation d = Eigen.Constant 3 (Eigen.Zero 3)
  | OfRotationMatrixPassive _ d =>
      RotationMatrixDiff.toImplementation d = Eigen.Constant 3 (Eigen.Zero 3)
  | OfAngleAxis _ d =>
      AngleAxisDiff.angle d = 0 /\ AngleAxisDiff.axis d = Eigen.Zero 3
  | OfRotationVector _ d =>
      RotationVectorDiff.x d = 0 /\ RotationVectorDiff.y d = 0
      /\ RotationVectorDiff.z d = 0
  | OfEulerAnglesZyx _ d =>
      EulerAnglesZyxDiff.roll d = 0 /\ EulerAnglesZyxDiff.pitch d = 0
      /\ EulerAnglesZyxDiff.yaw d = 0
  | OfEulerAnglesXyz _ d =>
      EulerAnglesXyzDiff.roll d = 0 /\ EulerAnglesXyzDiff.pitch d = 0
      /\ EulerAnglesXyzDiff.yaw d = 0
  end.

(** The rotation is away from the singular configurations: the magnitude of
    a rotation vector is not zero, the pitch of Euler angles is not at
    +-pi/2. *)
Definition nonSingular (p : RotationAndDiff) : Prop :=
  match p with
  | OfRotationVector r _ => Eigen.norm (RotationVector.vector r) <> 0
  | OfEulerAnglesZyx r _ =>
      EulerAnglesZyx.pitch r <> PI / 2 /\ EulerAnglesZyx.pitch r <> - (PI / 2)
  | OfEulerAnglesXyz r _ =>
      EulerAnglesXyz.pitch r <> PI / 2 /\ EulerAnglesXyz.pitch r <> - (PI / 2)
  | _ => True
  end.

(** ** The behaviour of the rotation-vector conversion towards zero *)

(** The magnitude of an angular velocity. *)
Definition magnitude (w : LocalAngularVelocity.t ACTIVE) : Scalar :=
  Eigen.norm (LocalAngularVelocity.toImplementation w).

(** "As the magnitude of the rotation vector goes to 0 with the derivative
    fixed, the magnitude of the result diverges": it is beyond every bound
    [M] for all rotation vectors close enough to zero. *)
Definition divergesAtZero (rotationVectorDiff : RotationVectorDiff.t ACTIVE)
  : Prop :=
  forall M : Scalar, exists delta : Scalar, 0 < delta /\
    forall rotationVector : RotationVector.t ACTIVE,
      0 < Eigen.norm (RotationVector.vector rotationVector) < delta ->
      forall w : LocalAngularVelocity.t ACTIVE,
        convert rotationVector rotationVectorDiff = Finite w ->
        M < magnitude w.

(** ** The rotation-vector conversion in binary64 *)

(** The same lines of the header read with [PrimType_ = double]: Rocq's
    primitive floats are the binary64 numbers of IEEE 754 with rounding to
    nearest, ties to even, and they have the infinities and NaN.  [sin] and
    [cos] are the functions of the C library and are parameters here.  The
    rotation vector is (v1, v2, v3) and [norm()] is the square root of the
    sum of the squares.  This reading is used where the cube of the magnitude
    is a zero (the zero rotation vector, and the rotation vectors so short
    that the cube underflows) and at one rotation vector next to zero; the
    other theorems are about [convert]. *)
Definition convert_RotationVector_double (sin cos : float -> float)
  (v1 v2 v3 dv1 dv2 dv3 : float) : float * float * float :=
  (let v := PrimFloat.sqrt (v1*v1 + v2*v2 + v3*v3) in
   let t2 := 1/(v*v*v) in
   let t3 := cos v in
   let t4 := sin v in
   let t5 := v1*v1 in
   let t6 := v1*v2 in
   let t7 := v*v in
   let t8 := t4*t7 in
   let t9 := v2*v2 in
   let t10 := v2*v3 in
   let t11 := v1*v3 in
   let t12 := t3*v2 in
   let t13 := v3*v3 in
   let w1 := dv3*t2*(v*(t11+t12-v2)-t4*v1*v3)+dv1*t2*(t8-t4*t5+t5*v)+dv2*t2*(v*(t6+v3-t3*v3)-t4*v1*v2) in
   let w2 := dv1*t2*(v*(t6-v3+t3*v3)-t4*v1*v2)+dv2*t2*(t8-t4*t9+t9*v)+dv3*t2*(v*(t10+v1-t3*v1)-t4*v2*v3) in
   let w3 := dv2*t2*(v*(t10-v1+t3*v1)-t4*v2*v3)+dv1*t2*(v*(t11-t12+v2)-t4*v1*v3)+dv3*t2*(t8-t4*t13+t13*v) in
   (w1, w2, w3))%float.

(** All three components are NaN. *)
Definition allNaN (w : float * float * float) : bool :=
  let '(w1, w2, w3) := w in
  (PrimFloat.is_nan w1 && PrimFloat.is_nan w2 && PrimFloat.is_nan w3)%bool.

(** A zero of either sign, or NaN. *)
Definition zeroOrNaN (x : float) : Prop :=
  match Prim2SF x with
  | S754_zero _ | S754_nan => True
  | _ => False
  end.

(** An infinity of either sign, or NaN. *)
Definition infinityOrNaN (x : float) : Prop :=
  match Prim2SF x with
  | S754_infinity _ | S754_nan => True
  | _ => False
  end.

(** * Properties *)

(** ** Tactics *)

(** Takes records and tuples apart down to their scalar coefficients. *)
Ltac coefficients :=
  repeat match goal with
    | q : Quaternion.t |- _ => destruct q
    | r : RotationQuaternion.t _ |- _ => destruct r
    | r : RotationQuaternionDiff.t _ |- _ => destruct r
    | r : RotationMatrix.t _ |- _ => destruct r
    | r : RotationMatrixDiff.t _ |- _ => destruct r
    | r : AngleAxis.t _ |- _ => destruct r
    | r : AngleAxisDiff.t _ |- _ => destruct r
    | r : RotationVector.t _ |- _ => destruct r
    | r : RotationVectorDiff.t _ |- _ => destruct r
    | r : EulerAnglesZyx.t _ |- _ => destruct r
    | r : EulerAnglesZyxDiff.t _ |- _ => destruct r
    | r : EulerAnglesXyz.t _ |- _ => destruct r
    | r : EulerAnglesXyzDiff.t _ |- _ => destruct r
    | r : LocalAngularVelocity.t _ |- _ => destruct r
    | v : Vector3 |- _ => progress cbv in v
    | v : Vector4 |- _ => progress cbv in v
    | m : Matrix3x3 |- _ => progress cbv in m
    | p : (_ * _)%type |- _ => destruct p
    | u : unit |- _ => destruct u
    end.

(** Unfolds the model down to the arithmetic of the real numbers. *)
Ltac evaluate :=
  cbv beta iota zeta delta
    - [Rplus Rmult Rminus Ropp Rinv Rdiv IZR sin cos sqrt Req_dec_T Rabs].

(** Two values are equal when their coefficients are, as polynomials. *)
Ltac by_coefficients :=
  evaluate; repeat first [ring | progress f_equal].

(** Writes the factorials of a hypothesis as integer literals. *)
Ltac INR_literals H :=
  repeat match type of H with
    | context [INR ?n] =>
        let v := eval vm_compute in (Z.of_nat n) in
        replace (INR n) with (IZR v) in H by (rewrite INR_IZR_INZ; reflexivity)
    end.

(** ** The matrix model on small inputs *)

Example mul_2x2 :
  Eigen.mul (Rows := 2) (Inner := 2) (Cols := 2)
    [< [< 1; 2 >]; [< 3; 4 >] >] [< [< 0; 1 >]; [< 1; 0 >] >]
  = [< [< 1 * 0 + (2 * 1 + 0); 1 * 1 + (2 * 0 + 0) >];
       [< 3 * 0 + (4 * 1 + 0); 3 * 1 + (4 * 0 + 0) >] >].
Proof. reflexivity. Qed.

(** The two helpers of LinearAlgebra.hpp as they are modelled: the skew
    matrix of v applied to u is the cross product v x u, and the vector of
    the skew matrix of v is v. *)
Lemma skew_matrix_is_cross_product (v u : Vector3) :
  let c := fun (w : Vector3) i => Eigen.coeff i w in
  Eigen.mulVec (linear_algebra.getSkewMatrixFromVector v) u
  = [< c v 1%nat * c u 2%nat - c v 2%nat * c u 1%nat;
       c v 2%nat * c u 0%nat - c v 0%nat * c u 2%nat;
       c v 0%nat * c u 1%nat - c v 1%nat * c u 0%nat >].
Proof.
  intros c. subst c.
  destruct v as [v1 [v2 [v3 []]]], u as [u1 [u2 [u3 []]]]. by_coefficients.
Qed.

Lemma skew_matrix_round_trip (v : Vector3) :
  linear_algebra.getVectorFromSkewMatrix
    (linear_algebra.getSkewMatrixFromVector v) = v.
Proof.
  destruct v as [v1 [v2 [v3 []]]]. reflexivity.
Qed.

(** ** Real-number facts the proofs use *)

Lemma quotient_nonzero (a b : Scalar) : b <> 0 -> quotient a b = Finite (a / b).
Proof.
  intros Hb. unfold quotient. destruct (Req_dec_T b 0); [contradiction | reflexivity].
Qed.

Lemma quotient_zero (a : Scalar) : quotient a 0 = NotFinite.
Proof.
  unfold quotient. destruct (Req_dec_T 0 0); [reflexivity | contradiction].
Qed.

Lemma quotient_bounds (x a lo hi : R) :
  0 < a -> lo * a <= x <= hi * a -> lo <= x / a <= hi.
Proof.
  intros Ha [Hlo Hhi]. split.
  - apply Rmult_le_reg_r with a; [exact Ha | ].
    replace (x / a * a) with x by (field; lra). exact Hlo.
  - apply Rmult_le_reg_r with a; [exact Ha | ].
    replace (x / a * a) with x by (field; lra). exact Hhi.
Qed.

Lemma Rabs_le_both (x b : R) : Rabs x <= b -> - b <= x <= b.
Proof.
  intros H. unfold Rabs in H. destruct (Rcase_abs x); lra.
Qed.

Lemma Rabs_mult_le (x y X Y : R) :
  Rabs x <= X -> Rabs y <= Y -> Rabs (x * y) <= X * Y.
Proof.
  intros Hx Hy. rewrite Rabs_mult.
  apply Rmult_le_compat; try apply Rabs_pos; assumption.
Qed.

Lemma Rabs_plus_le (x y X Y : R) :
  Rabs x <= X -> Rabs y <= Y -> Rabs (x + y) <= X + Y.
Proof.
  intros Hx Hy. pose proof (Rabs_triang x y). lra.
Qed.

Lemma Rabs_minus_le (x y X Y : R) :
  Rabs x <= X -> Rabs y <= Y -> Rabs (x - y) <= X + Y.
Proof.
  intros Hx Hy. unfold Rminus. apply Rabs_plus_le; [ | rewrite Rabs_Ropp]; assumption.
Qed.

Lemma sin_le_self (a : R) : 0 <= a -> sin a <= a.
Proof.
  intros [Ha | <-].
  - left. apply sin_lt_x. exact Ha.
  - rewrite sin_0. lra.
Qed.

Lemma one_le_PI : 1 <= PI.
Proof.
  pose proof PI2_3_2 as H. unfold PI2 in H. lra.
Qed.

Lemma sin_ge_cubic (a : R) : 0 <= a -> a <= 1 -> a - a ^ 3 / 6 <= sin a.
Proof.
  intros H0 H1.
  assert (HPI : a <= PI) by (pose proof one_le_PI; lra).
  destruct (SIN a H0 HPI) as [Hlb _].
  unfold sin_lb, sin_approx in Hlb. cbn [sum_f_R0] in Hlb. unfold sin_term in Hlb.
  INR_literals Hlb.
  cbn [Nat.mul Nat.add pow] in Hlb.
  assert (H5 : 0 <= a ^ 5 * (1 - a ^ 2 / 42)).
  { apply Rmult_le_pos; [apply pow_le; lra | nra]. }
  nra.
Qed.

Lemma Rabs_sin_le (x : R) : Rabs (sin x) <= Rabs x.
Proof.
  assert (Hpos : forall y, 0 <= y -> Rabs (sin y) <= y).
  { intros y Hy. apply Rabs_le. split; [ | apply sin_le_self; exact Hy].
    destruct (Rle_dec y 1) as [Hle | Hgt].
    - assert (0 <= sin y); [ | lra].
      apply sin_ge_0; [lra | pose proof one_le_PI; lra].
    - pose proof (SIN_bound y). lra. }
  destruct (Rle_dec 0 x) as [Hx | Hx].
  - rewrite (Rabs_right x) by lra. apply Hpos. exact Hx.
  - rewrite (Rabs_left x) by lra.
    rewrite <- (Rabs_Ropp (sin x)), <- sin_neg. apply Hpos. lra.
Qed.

Lemma one_minus_cos_le (a : R) : 0 <= 1 - cos a <= a ^ 2 / 2.
Proof.
  replace a with (2 * (a / 2)) at 1 2 by field.
  rewrite cos_2a_sin.
  pose proof (Rabs_sin_le (a / 2)) as Hs.
  assert (Hsq : sin (a / 2) * sin (a / 2) <= (a / 2) * (a / 2)).
  { apply Rsqr_le_abs_1 in Hs. exact Hs. }
  pose proof (Rle_0_sqr (sin (a / 2))) as Hp. unfold Rsqr in Hp.
  lra.
Qed.

Lemma norm_components (v : Vector3) :
  let a := Eigen.norm v in
  0 <= a
  /\ a * a = Eigen.coeff 0 v ^ 2 + Eigen.coeff 1 v ^ 2 + Eigen.coeff 2 v ^ 2
  /\ Rabs (Eigen.coeff 0 v) <= a
  /\ Rabs (Eigen.coeff 1 v) <= a
  /\ Rabs (Eigen.coeff 2 v) <= a.
Proof.
  intros a. destruct v as [v1 [v2 [v3 []]]].
  assert (Ha : 0 <= a) by apply sqrt_pos.
  assert (Hsq : a * a = v1 ^ 2 + v2 ^ 2 + v3 ^ 2).
  { subst a. unfold Eigen.norm. rewrite sqrt_sqrt.
    - evaluate. ring.
    - evaluate. nra. }
  clearbody a. evaluate.
  split; [exact Ha | ]. split; [exact Hsq | ].
  repeat split; apply Rabs_le; nra.
Qed.

Lemma norm_along_x (a : Scalar) :
  0 <= a -> Eigen.norm (n := 3) [< a; 0; 0 >] = a.
Proof.
  intros Ha. unfold Eigen.norm. evaluate.
  replace (a * a + (0 * 0 + (0 * 0 + 0))) with (a * a) by ring.
  apply sqrt_square. exact Ha.
Qed.

(** The magnitude the conversion computes is the Euclidean norm of the
    three components. *)
Lemma norm_RotationVector (rotationVector : RotationVector.t ACTIVE) :
  Eigen.norm (RotationVector.vector rotationVector)
  = sqrt (RotationVector.x rotationVector ^ 2
          + RotationVector.y rotationVector ^ 2
          + RotationVector.z rotationVector ^ 2).
Proof.
  coefficients. evaluate. f_equal. ring.
Qed.

(** ** The zero-derivative law *)



(** ** The unit-quaternion conversion *)

(** C2. The unit-quaternion conversion returns 2.H.dq, where the rows of H
    are [-x w z -y], [-y -z w x], [-z y -x w] in the components of the
    rotation quaternion, and dq lists the components of the derivative
    quaternion in the order (x, y, z, w). *)
Theorem convert_RotationQuaternion_is_2_H_bar_qdot :
  forall (rquat : RotationQuaternion.t ACTIVE)
    (rquatdiff : RotationQuaternionDiff.t ACTIVE),
  let q := RotationQuaternion.toUnitQuaternion rquat in
  let dq := RotationQuaternionDiff.toQuaternion rquatdiff in
  let w := Quaternion.w q in
  let x := Quaternion.x q in
  let y := Quaternion.y q in
  let z := Quaternion.z q in
  let dx := Quaternion.x dq in
  let dy := Quaternion.y dq in
  let dz := Quaternion.z dq in
  let dw := Quaternion.w dq in
  convert rquat rquatdiff
  = Finite (LocalAngularVelocity.fromComponents
            (2 * (- x * dx + w * dy + z * dz + - y * dw))
            (2 * (- y * dx + - z * dy + w * dz + x * dw))
            (2 * (- z * dx + y * dy + - x * dz + w * dw))).
Proof.
  intros. subst q dq w x y z dx dy dz dw. coefficients.
  unfold convert, convert_RotationQuaternion.
  by_coefficients.
Qed.

(** The unit-quaternion conversion is 2.H.c for the four coefficients
    c = (c0, c1, c2, c3) of [vector()] of the derivative quaternion, whatever
    their order is in [vector()]. *)
Lemma convert_RotationQuaternion_on_vector
  (rquat : RotationQuaternion.t ACTIVE)
  (rquatdiff : RotationQuaternionDiff.t ACTIVE) :
  let q := RotationQuaternion.toUnitQuaternion rquat in
  let w := Quaternion.w q in
  let x := Quaternion.x q in
  let y := Quaternion.y q in
  let z := Quaternion.z q in
  let c := fun i =>
    Eigen.coeff i (Quaternion.vector (RotationQuaternionDiff.toQuaternion rquatdiff)) in
  convert rquat rquatdiff
  = Finite (LocalAngularVelocity.fromComponents
      (2 * (- x * c 0%nat + w * c 1%nat + z * c 2%nat + - y * c 3%nat))
      (2 * (- y * c 0%nat + - z * c 1%nat + w * c 2%nat + x * c 3%nat))
      (2 * (- z * c 0%nat + y * c 1%nat + - x * c 2%nat + w * c 3%nat))).
Proof.
  intros q w x y z c. subst q w x y z c.
  unfold convert, convert_RotationQuaternion.
  generalize (Quaternion.vector (RotationQuaternionDiff.toQuaternion rquatdiff)).
  intros c. destruct c as [c0 [c1 [c2 [c3 []]]]].
  destruct rquat as [[qw qx qy qz]].
  by_coefficients.
Qed.

(** At the identity quaternion (w = 1, x = y = z = 0) the conversion returns
    twice the coefficients 1, 2 and 3 of [vector()]: with the order
    (x, y, z, w) these are the components y, z and w of the derivative
    quaternion. *)
Lemma convert_RotationQuaternion_at_identity (dw dx dy dz : Scalar) :
  convert (RotationQuaternion.mk (Usage_ := ACTIVE) (Quaternion.mk 1 0 0 0))
    (RotationQuaternionDiff.mk (Usage_ := ACTIVE) (Quaternion.mk dw dx dy dz))
  = Finite (LocalAngularVelocity.fromComponents (2 * dy) (2 * dz) (2 * dw)).
Proof.
  unfold convert, convert_RotationQuaternion. by_coefficients.
Qed.

(** The same motion seen through two conversions.  At the identity rotation
    the Euler angles ZYX with the rates (dphi, dtheta, dpsi) of roll, pitch
    and yaw and the quaternion with the rate
    (w, x, y, z) = (0, dphi/2, dtheta/2, dpsi/2) describe the same motion.
    The Euler-ZYX conversion returns (dphi, dtheta, dpsi).  With [vector()]
    in the order (x, y, z, w) the quaternion conversion returns
    (dtheta, dpsi, 0): the two differ, for instance at the rates (1, 2, 3). *)
Lemma quaternion_and_EulerAnglesZyx_at_identity (dphi dtheta dpsi : Scalar) :
  convert (EulerAnglesZyx.mk (Usage_ := ACTIVE) 0 0 0)
    ({| EulerAnglesZyxDiff.roll := dphi; EulerAnglesZyxDiff.pitch := dtheta;
        EulerAnglesZyxDiff.yaw := dpsi |} : EulerAnglesZyxDiff.t ACTIVE)
  = Finite (LocalAngularVelocity.fromComponents dphi dtheta dpsi)
  /\ convert (RotationQuaternion.mk (Usage_ := ACTIVE) (Quaternion.mk 1 0 0 0))
       (RotationQuaternionDiff.mk (Usage_ := ACTIVE)
          {| Quaternion.w := 0; Quaternion.x := dphi / 2;
             Quaternion.y := dtheta / 2; Quaternion.z := dpsi / 2 |})
     = Finite (LocalAngularVelocity.fromComponents dtheta dpsi 0).
Proof.
  split.
  - unfold convert, convert_EulerAnglesZyx. cbn.
    rewrite sin_0, cos_0. by_coefficients.
  - unfold convert, convert_RotationQuaternion.
    evaluate. repeat first [field | progress f_equal].
Qed.

Lemma quaternion_and_EulerAnglesZyx_differ_at_identity :
  convert (RotationQuaternion.mk (Usage_ := ACTIVE) (Quaternion.mk 1 0 0 0))
    (RotationQuaternionDiff.mk (Usage_ := ACTIVE)
       {| Quaternion.w := 0; Quaternion.x := 1 / 2;
          Quaternion.y := 2 / 2; Quaternion.z := 3 / 2 |})
  <> convert (EulerAnglesZyx.mk (Usage_ := ACTIVE) 0 0 0)
       ({| EulerAnglesZyxDiff.roll := 1; EulerAnglesZyxDiff.pitch := 2;
           EulerAnglesZyxDiff.yaw := 3 |} : EulerAnglesZyxDiff.t ACTIVE).
Proof.
  destruct (quaternion_and_EulerAnglesZyx_at_identity 1 2 3) as [-> ->].
  unfold LocalAngularVelocity.fromComponents.
  intros H. injection H as H1 H2 H3. lra.
Qed.

(** ** The rotation-vector conversion *)

(** C3. With a the magnitude of the rotation vector (v1, v2, v3) and
    (dv1, dv2, dv3) its derivative, the rotation-vector conversion computes
    the expanded closed form with t2 = 1/a^3, t3 = cos(a), t4 = sin(a),
    t8 = sin(a).a^2:
    w1 = dv3.t2.(a.(v1.v3 + t3.v2 - v2) - t4.v1.v3)
         + dv1.t2.(t8 - t4.v1^2 + v1^2.a)
         + dv2.t2.(a.(v1.v2 + v3 - t3.v3) - t4.v1.v2),
    and the analogous w2 and w3. *)
Theorem convert_RotationVector_closed_form :
  forall (rotationVector : RotationVector.t ACTIVE)
    (rotationVectorDiff : RotationVectorDiff.t ACTIVE),
  let v1 := RotationVector.x rotationVector in
  let v2 := RotationVector.y rotationVector in
  let v3 := RotationVector.z rotationVector in
  let dv1 := RotationVectorDiff.x rotationVectorDiff in
  let dv2 := RotationVectorDiff.y rotationVectorDiff in
  let dv3 := RotationVectorDiff.z rotationVectorDiff in
  let a := sqrt (v1 ^ 2 + v2 ^ 2 + v3 ^ 2) in
  convert rotationVector rotationVectorDiff
  = (t2 <- quotient 1 (a ^ 3) ;;
     let t3 := cos a in
     let t4 := sin a in
     let t8 := t4 * a ^ 2 in
     Finite (LocalAngularVelocity.fromComponents
       (dv3 * t2 * (a * (v1 * v3 + t3 * v2 - v2) - t4 * v1 * v3)
        + dv1 * t2 * (t8 - t4 * v1 ^ 2 + v1 ^ 2 * a)
        + dv2 * t2 * (a * (v1 * v2 + v3 - t3 * v3) - t4 * v1 * v2))
       (dv1 * t2 * (a * (v1 * v2 - v3 + t3 * v3) - t4 * v1 * v2)
        + dv2 * t2 * (t8 - t4 * v2 ^ 2 + v2 ^ 2 * a)
        + dv3 * t2 * (a * (v2 * v3 + v1 - t3 * v1) - t4 * v2 * v3))
       (dv2 * t2 * (a * (v2 * v3 - v1 + t3 * v1) - t4 * v2 * v3)
        + dv1 * t2 * (a * (v1 * v3 - t3 * v2 + v2) - t4 * v1 * v3)
        + dv3 * t2 * (t8 - t4 * v3 ^ 2 + v3 ^ 2 * a)))).
Proof.
  intros. subst a.
  unfold convert, convert_RotationVector.
  rewrite norm_RotationVector. fold v1 v2 v3.
  set (a := sqrt (v1 ^ 2 + v2 ^ 2 + v3 ^ 2)).
  replace (a ^ 3) with (a * a * a) by ring.
  destruct (quotient 1 (a * a * a)) as [t2|]; [ | reflexivity].
  cbn [bind]. unfold LocalAngularVelocity.fromComponents.
  fold dv1 dv2 dv3. cbv zeta.
  repeat first [ring | progress f_equal].
Qed.



(** The shape of one component of the rotation-vector formula once the
    derivative's own component is taken away from it. *)
Lemma remainder_bound (a alpha beta gamma u1 u2 u3 d1 d2 d3 : R) :
  0 <= a ->
  Rabs alpha <= a / 6 -> Rabs beta <= a / 6 -> Rabs gamma <= a / 2 ->
  Rabs u1 <= 1 -> Rabs u2 <= 1 -> Rabs u3 <= 1 ->
  Rabs (alpha * d1 + beta * u1 * (u1 * d1 + u2 * d2 + u3 * d3)
        + gamma * (u3 * d2 - u2 * d3))
  <= a * (Rabs d1 + Rabs d2 + Rabs d3).
Proof.
  intros Ha Halpha Hbeta Hgamma H1 H2 H3.
  assert (Hd : forall u d, Rabs u <= 1 -> Rabs (u * d) <= 1 * Rabs d).
  { intros u d Hu. apply Rabs_mult_le; [exact Hu | lra]. }
  pose proof (Rabs_pos d1). pose proof (Rabs_pos d2). pose proof (Rabs_pos d3).
  assert (T1 : Rabs (alpha * d1) <= a / 6 * Rabs d1).
  { apply Rabs_mult_le; [exact Halpha | lra]. }
  assert (T2 : Rabs (beta * u1 * (u1 * d1 + u2 * d2 + u3 * d3))
               <= a / 6 * 1 * (1 * Rabs d1 + 1 * Rabs d2 + 1 * Rabs d3)).
  { repeat first [apply Rabs_mult_le | apply Rabs_plus_le];
      first [assumption | apply Rle_refl]. }
  assert (T3 : Rabs (gamma * (u3 * d2 - u2 * d3))
               <= a / 2 * (1 * Rabs d2 + 1 * Rabs d3)).
  { apply Rabs_mult_le; [exact Hgamma | ].
    apply Rabs_minus_le; apply Hd; assumption. }
  pose proof (Rabs_triang (alpha * d1 + beta * u1 * (u1 * d1 + u2 * d2 + u3 * d3))
                (gamma * (u3 * d2 - u2 * d3))).
  pose proof (Rabs_triang (alpha * d1) (beta * u1 * (u1 * d1 + u2 * d2 + u3 * d3))).
  nra.
Qed.

(** One component of the rotation-vector formula differs from the matching
    component of the derivative by at most a.(|d1| + |d2| + |d3|), for a
    magnitude 0 < a <= 1. *)
Lemma component_near_derivative (a v1 v2 v3 d1 d2 d3 W : R) :
  0 < a -> a <= 1 -> Rabs v1 <= a -> Rabs v2 <= a -> Rabs v3 <= a ->
  W = d3 * (1 / (a * a * a)) * (a * (v1 * v3 + cos a * v2 - v2) - sin a * v1 * v3)
      + d1 * (1 / (a * a * a)) * (sin a * (a * a) - sin a * (v1 * v1) + v1 * v1 * a)
      + d2 * (1 / (a * a * a)) * (a * (v1 * v2 + v3 - cos a * v3) - sin a * v1 * v2) ->
  Rabs (W - d1) <= a * (Rabs d1 + Rabs d2 + Rabs d3).
Proof.
  intros Ha Ha1 H1 H2 H3 ->.
  replace (_ - d1)
    with ((sin a / a - 1) * d1
          + (a - sin a) / a * (v1 / a) * (v1 / a * d1 + v2 / a * d2 + v3 / a * d3)
          + (1 - cos a) / a * (v3 / a * d2 - v2 / a * d3))
    by (field; lra).
  assert (Hs : 0 <= a - sin a <= a ^ 3 / 6).
  { split.
    - pose proof (sin_le_self a). lra.
    - pose proof (sin_ge_cubic a). lra. }
  pose proof (one_minus_cos_le a) as Hc.
  assert (Hunit : forall v, Rabs v <= a -> Rabs (v / a) <= 1).
  { intros v Hv. apply Rabs_le.
    apply quotient_bounds; [exact Ha | ].
    pose proof (Rabs_le_both _ _ Hv). lra. }
  assert (Hbeta : 0 <= (a - sin a) / a <= a / 6).
  { apply quotient_bounds; [exact Ha | ]. nra. }
  assert (Hgamma : 0 <= (1 - cos a) / a <= a / 2).
  { apply quotient_bounds; [exact Ha | ]. nra. }
  apply remainder_bound; try (apply Hunit; assumption).
  - lra.
  - replace (sin a / a - 1) with (- ((a - sin a) / a)) by (field; lra).
    rewrite Rabs_Ropp. apply Rabs_le. lra.
  - apply Rabs_le. lra.
  - apply Rabs_le. lra.
Qed.

(** Near the zero rotation vector the conversion stays next to the
    derivative: for a magnitude 0 < a <= 1 every component of the result is
    within a.(|dv1| + |dv2| + |dv3|) of the same component of the
    derivative. *)
Lemma convert_RotationVector_near_derivative
  (rotationVector : RotationVector.t ACTIVE)
  (rotationVectorDiff : RotationVectorDiff.t ACTIVE) :
  let a := Eigen.norm (RotationVector.vector rotationVector) in
  let dv1 := RotationVectorDiff.x rotationVectorDiff in
  let dv2 := RotationVectorDiff.y rotationVectorDiff in
  let dv3 := RotationVectorDiff.z rotationVectorDiff in
  0 < a -> a <= 1 ->
  exists w : LocalAngularVelocity.t ACTIVE,
    convert rotationVector rotationVectorDiff = Finite w
    /\ Rabs (LocalAngularVelocity.x w - dv1) <= a * (Rabs dv1 + Rabs dv2 + Rabs dv3)
    /\ Rabs (LocalAngularVelocity.y w - dv2) <= a * (Rabs dv1 + Rabs dv2 + Rabs dv3)
    /\ Rabs (LocalAngularVelocity.z w - dv3) <= a * (Rabs dv1 + Rabs dv2 + Rabs dv3).
Proof.
  intros a dv1 dv2 dv3 Ha Ha1.
  destruct (norm_components (RotationVector.vector rotationVector))
    as (_ & _ & H1 & H2 & H3).
  fold a in H1, H2, H3.
  unfold convert, convert_RotationVector. fold a.
  rewrite quotient_nonzero
    by (repeat apply Rmult_integral_contrapositive_currified; lra).
  cbn [bind]. eexists. split; [reflexivity | ].
  unfold LocalAngularVelocity.x, LocalAngularVelocity.y, LocalAngularVelocity.z,
    LocalAngularVelocity.fromComponents.
  cbn [LocalAngularVelocity.toImplementation Eigen.coeff fst snd].
  fold dv1 dv2 dv3.
  unfold RotationVector.x, RotationVector.y, RotationVector.z in *.
  set (v1 := Eigen.coeff 0 (RotationVector.vector rotationVector)) in *.
  set (v2 := Eigen.coeff 1 (RotationVector.vector rotationVector)) in *.
  set (v3 := Eigen.coeff 2 (RotationVector.vector rotationVector)) in *.
  split; [ | split].
  - apply (component_near_derivative a v1 v2 v3 dv1 dv2 dv3); try assumption. ring.
  - replace (Rabs dv1 + Rabs dv2 + Rabs dv3) with (Rabs dv2 + Rabs dv3 + Rabs dv1) by ring.
    apply (component_near_derivative a v2 v3 v1 dv2 dv3 dv1); try assumption. ring.
  - replace (Rabs dv1 + Rabs dv2 + Rabs dv3) with (Rabs dv3 + Rabs dv1 + Rabs dv2) by ring.
    apply (component_near_derivative a v3 v1 v2 dv3 dv1 dv2); try assumption. ring.
Qed.

(** The magnitude of the result stays below 4.(|dv1| + |dv2| + |dv3|) for
    every rotation vector of magnitude 0 < a <= 1. *)
Lemma convert_RotationVector_bounded
  (rotationVector : RotationVector.t ACTIVE)
  (rotationVectorDiff : RotationVectorDiff.t ACTIVE)
  (w : LocalAngularVelocity.t ACTIVE) :
  let a := Eigen.norm (RotationVector.vector rotationVector) in
  0 < a -> a <= 1 ->
  convert rotationVector rotationVectorDiff = Finite w ->
  magnitude w <= 4 * (Rabs (RotationVectorDiff.x rotationVectorDiff)
                      + Rabs (RotationVectorDiff.y rotationVectorDiff)
                      + Rabs (RotationVectorDiff.z rotationVectorDiff)).
Proof.
  intros a Ha Ha1 Hw.
  destruct (convert_RotationVector_near_derivative
              rotationVector rotationVectorDiff Ha Ha1)
    as (w' & Hw' & H1 & H2 & H3).
  fold a in H1, H2, H3.
  rewrite Hw in Hw'. injection Hw' as <-.
  set (dv1 := RotationVectorDiff.x rotationVectorDiff) in *.
  set (dv2 := RotationVectorDiff.y rotationVectorDiff) in *.
  set (dv3 := RotationVectorDiff.z rotationVectorDiff) in *.
  set (S := Rabs dv1 + Rabs dv2 + Rabs dv3) in *.
  pose proof (Rabs_pos dv1). pose proof (Rabs_pos dv2). pose proof (Rabs_pos dv3).
  assert (HS : 0 <= S) by (unfold S; lra).
  clearbody a.
  assert (Hb : forall c d, Rabs d <= S -> Rabs (c - d) <= a * S -> Rabs c <= 2 * S).
  { intros c d Hd Hc. apply Rabs_le.
    apply Rabs_le_both in Hd. apply Rabs_le_both in Hc. nra. }
  assert (B1 : Rabs (LocalAngularVelocity.x w) <= 2 * S)
    by (apply (Hb _ dv1); [unfold S; lra | exact H1]).
  assert (B2 : Rabs (LocalAngularVelocity.y w) <= 2 * S)
    by (apply (Hb _ dv2); [unfold S; lra | exact H2]).
  assert (B3 : Rabs (LocalAngularVelocity.z w) <= 2 * S)
    by (apply (Hb _ dv3); [unfold S; lra | exact H3]).
  apply Rabs_le_both in B1, B2, B3.
  destruct w as [[w1 [w2 [w3 []]]]].
  unfold magnitude, Eigen.norm.
  unfold LocalAngularVelocity.x, LocalAngularVelocity.y, LocalAngularVelocity.z
    in B1, B2, B3.
  cbn [LocalAngularVelocity.toImplementation Eigen.coeff fst snd] in *.
  rewrite <- (sqrt_square (4 * S)) by lra.
  apply sqrt_le_1_alt. clearbody S. clear - B1 B2 B3 HS. evaluate.
  assert (w1 * w1 <= 4 * (S * S)) by nra.
  assert (w2 * w2 <= 4 * (S * S)) by nra.
  assert (w3 * w3 <= 4 * (S * S)) by nra.
  nra.
Qed.

(** *** Binary64 on zeros, infinities and NaN *)

Lemma Prim2SF_zero : Prim2SF 0%float = S754_zero false.
Proof. reflexivity. Qed.

Lemma Prim2SF_infinity : Prim2SF infinity = S754_infinity false.
Proof. reflexivity. Qed.

Lemma mul_zero_r (x : float) : zeroOrNaN (x * 0)%float.
Proof.
  unfold zeroOrNaN. rewrite mul_spec, Prim2SF_zero.
  destruct (Prim2SF x); exact I.
Qed.

Lemma mul_zero_l (x : float) : zeroOrNaN (0 * x)%float.
Proof.
  unfold zeroOrNaN. rewrite mul_spec, Prim2SF_zero.
  destruct (Prim2SF x); exact I.
Qed.

Lemma sub_zeroOrNaN (x y : float) :
  zeroOrNaN x -> zeroOrNaN y -> zeroOrNaN (x - y)%float.
Proof.
  unfold zeroOrNaN. rewrite sub_spec.
  destruct (Prim2SF x) as [[|]| | |], (Prim2SF y) as [[|]| | |];
    intros Hx Hy; try contradiction; exact I.
Qed.

Lemma mul_infinity_r (x : float) : infinityOrNaN (x * infinity)%float.
Proof.
  unfold infinityOrNaN. rewrite mul_spec, Prim2SF_infinity.
  destruct (Prim2SF x); exact I.
Qed.

Lemma mul_infinity_zero (x y : float) :
  infinityOrNaN x -> zeroOrNaN y -> Prim2SF (x * y)%float = S754_nan.
Proof.
  unfold infinityOrNaN, zeroOrNaN. rewrite mul_spec.
  destruct (Prim2SF x), (Prim2SF y); intros Hx Hy; try contradiction; reflexivity.
Qed.

Lemma add_NaN_l (x y : float) :
  Prim2SF x = S754_nan -> Prim2SF (x + y)%float = S754_nan.
Proof.
  intros Hx. rewrite add_spec, Hx. reflexivity.
Qed.

Lemma is_nan_of_NaN (x : float) : Prim2SF x = S754_nan -> PrimFloat.is_nan x = true.
Proof.
  intros Hx. unfold PrimFloat.is_nan. rewrite eqb_spec, Hx. reflexivity.
Qed.

(** The shape of each component of the conversion at the zero rotation
    vector: its first summand is a multiple of +infinity times an expression
    that is a zero or NaN. *)
Lemma infinity_times_zero_sum (d X s T2 T3 : float) :
  PrimFloat.is_nan (d * infinity * (0 * X - s * 0 * 0) + T2 + T3)%float = true.
Proof.
  apply is_nan_of_NaN. apply add_NaN_l. apply add_NaN_l.
  apply mul_infinity_zero.
  - apply mul_infinity_r.
  - apply sub_zeroOrNaN; [apply mul_zero_l | apply mul_zero_r].
Qed.

(** In binary64 the conversion at the zero rotation vector returns NaN in
    every component, whatever the derivative is and whatever [sin] and [cos]
    return: the quotient 1.0/(v*v*v) is +infinity, and the first summand of
    each component is a multiple of it times a zero. *)
Lemma double_at_zero_magnitude_is_NaN :
  forall (sin cos : float -> float) (dv1 dv2 dv3 : float),
  allNaN (convert_RotationVector_double sin cos 0 0 0 dv1 dv2 dv3) = true.
Proof.
  intros sin cos dv1 dv2 dv3.
  unfold convert_RotationVector_double, allNaN. cbv zeta.
  replace (PrimFloat.sqrt (0 * 0 + 0 * 0 + 0 * 0))%float with 0%float
    by (vm_compute; reflexivity).
  replace (1 / (0 * 0 * 0))%float with infinity by (vm_compute; reflexivity).
  rewrite !infinity_times_zero_sum. reflexivity.
Qed.

(** *** Towards the zero rotation vector *)

(** Whatever the derivative is, the magnitude of the result does not diverge
    as the rotation vector goes to zero. *)
Lemma convert_RotationVector_never_diverges
  (rotationVectorDiff : RotationVectorDiff.t ACTIVE) :
  ~ divergesAtZero rotationVectorDiff.
Proof.
  intros Hd.
  set (d := rotationVectorDiff) in *.
  set (S := Rabs (RotationVectorDiff.x d) + Rabs (RotationVectorDiff.y d)
            + Rabs (RotationVectorDiff.z d)).
  destruct (Hd (4 * S)) as (delta & Hdelta & Hfar).
  set (a := Rmin delta 1 / 2).
  assert (Ha : 0 < a < delta /\ a <= 1).
  { unfold a. pose proof (Rmin_l delta 1). pose proof (Rmin_r delta 1).
    assert (0 < Rmin delta 1) by (apply Rmin_glb_lt; lra). lra. }
  set (r := RotationVector.mk (Usage_ := ACTIVE) [< a; 0; 0 >]).
  assert (Hr : Eigen.norm (RotationVector.vector r) = a)
    by (apply norm_along_x; lra).
  destruct (convert_RotationVector_near_derivative r d) as (w & Hw & _).
  { rewrite Hr. lra. }
  { rewrite Hr. lra. }
  pose proof (Hfar r ltac:(rewrite Hr; lra) w Hw) as Hbig.
  pose proof (convert_RotationVector_bounded r d w) as Hsmall.
  cbv zeta in Hsmall. rewrite Hr in Hsmall.
  specialize (Hsmall ltac:(lra) ltac:(lra) Hw).
  fold S in Hsmall. lra.
Qed.




(** In binary64 the conversion at the rotation vector (2^-27, 0, 0), of
    magnitude about 7.45e-9, with the derivative (1, 0, 0) returns (1, 0, 0),
    when sin(2^-27) = 2^-27 and cos(2^-27) = 1 (the binary64 numbers nearest
    to the sine and the cosine): next to zero the result is the derivative,
    it is neither large nor NaN. *)
Theorem double_near_zero_is_derivative (sin cos : float -> float) :
  sin 0x1p-27%float = 0x1p-27%float -> cos 0x1p-27%float = 1%float ->
  convert_RotationVector_double sin cos 0x1p-27 0 0 1 0 0
  = (1%float, 0%float, 0%float).
Proof.
  intros Hsin Hcos. unfold convert_RotationVector_double.
  replace (PrimFloat.sqrt (0x1p-27 * 0x1p-27 + 0 * 0 + 0 * 0))%float
    with 0x1p-27%float by (vm_compute; reflexivity).
  rewrite Hsin, Hcos. vm_compute. reflexivity.
Qed.

(** The same with functions in the place of [sin] and [cos] that agree with
    them, to the precision of binary64, at 2^-27. *)
Lemma double_near_zero_is_derivative_witness :
  convert_RotationVector_double (fun x => x) (fun _ => 1%float)
    0x1p-27 0 0 1 0 0
  = (1%float, 0%float, 0%float).
Proof.
  exact (double_near_zero_is_derivative (fun x => x) (fun _ => 1%float)
           eq_refl eq_refl).
Defined.

(** ** Usage conventions in the arithmetic of angular velocities *)

(** The claim C5 as it stands does not hold for [+=] and [-=]: an ACTIVE
    angular velocity and a PASSIVE one are accepted and combined. *)
Lemma mixed_usage_accumulation_is_computed :
  let a : LocalAngularVelocity.t ACTIVE :=
    LocalAngularVelocity.fromComponents 1 2 3 in
  let p : LocalAngularVelocity.t PASSIVE :=
    LocalAngularVelocity.fromComponents 10 20 30 in
  LocalAngularVelocity.usage a = ACTIVE
  /\ LocalAngularVelocity.usage p = PASSIVE
  /\ (a += p) = LocalAngularVelocity.fromComponents 11 22 33
  /\ (a -= p) = LocalAngularVelocity.fromComponents (-9) (-18) (-27)
  /\ (p += a) = LocalAngularVelocity.fromComponents 11 22 33.
Proof.
  cbv zeta. split; [reflexivity | ]. split; [reflexivity | ].
  unfold LocalAngularVelocity.operator_plus_eq,
    LocalAngularVelocity.operator_minus_eq,
    LocalAngularVelocity.otherImplementation,
    LocalAngularVelocity.Other_LocalAngularVelocity.
  repeat split; by_coefficients.
Qed.

(** C5, as amended.  [operator+] and [operator-] take two angular velocities
    of one usage.  [operator+=] and [operator-=] take an operand of any type
    that has [toImplementation()]: an angular velocity of either usage is
    accepted, whatever the usage of the left operand, the components are
    added or subtracted one by one, and the result keeps the usage of the
    left operand. *)
Theorem accumulation_accepts_either_usage :
  forall (Usage_ OtherUsage_ : RotationUsage)
    (this : LocalAngularVelocity.t Usage_)
    (other : LocalAngularVelocity.t OtherUsage_)
    (same : LocalAngularVelocity.t Usage_),
  let x := @LocalAngularVelocity.x in
  let y := @LocalAngularVelocity.y in
  let z := @LocalAngularVelocity.z in
  (this += other)
  = LocalAngularVelocity.fromComponents
      (x _ this + x _ other) (y _ this + y _ other) (z _ this + z _ other)
  /\ (this -= other)
     = LocalAngularVelocity.fromComponents
         (x _ this - x _ other) (y _ this - y _ other) (z _ this - z _ other)
  /\ LocalAngularVelocity.usage (this += other) = Usage_
  /\ LocalAngularVelocity.usage (this -= other) = Usage_
  /\ LocalAngularVelocity.operator_plus this same
     = LocalAngularVelocity.fromComponents
         (x _ this + x _ same) (y _ this + y _ same) (z _ this + z _ same)
  /\ LocalAngularVelocity.operator_minus this same
     = LocalAngularVelocity.fromComponents
         (x _ this - x _ same) (y _ this - y _ same) (z _ this - z _ same).
Proof.
  intros. subst x y z.
  destruct this as [[t1 [t2 [t3 []]]]], other as [[o1 [o2 [o3 []]]]],
    same as [[s1 [s2 [s3 []]]]].
  repeat split.
Qed.



(** [setZero] gives the value of the default constructor, whatever the value
    was. *)
Theorem setZero_is_default :
  forall (Usage_ : RotationUsage) (v : LocalAngularVelocity.t Usage_),
  LocalAngularVelocity.setZero v = LocalAngularVelocity.default
  /\ LocalAngularVelocity.setZero v = LocalAngularVelocity.fromComponents 0 0 0.
Proof.
  intros. split; reflexivity.
Qed.

(** ** The Euler-angle conversions *)

(** C6. The Euler-ZYX conversion returns
    w1 = dphi - dpsi.sin(theta),
    w2 = dtheta.cos(phi) + dpsi.sin(phi).cos(theta),
    w3 = -dtheta.sin(phi) + dpsi.cos(phi).cos(theta)
    for roll phi, pitch theta and the rates (dphi, dtheta, dpsi) of roll,
    pitch and yaw; at roll = pitch = yaw = 0 with the rates (1, 2, 3) it
    returns (1, 2, 3). *)
Theorem convert_EulerAnglesZyx_formula :
  (forall (eulerAngles : EulerAnglesZyx.t ACTIVE)
     (eulerAnglesDiff : EulerAnglesZyxDiff.t ACTIVE),
     let phi := EulerAnglesZyx.roll eulerAngles in
     let theta := EulerAnglesZyx.pitch eulerAngles in
     let dphi := EulerAnglesZyxDiff.roll eulerAnglesDiff in
     let dtheta := EulerAnglesZyxDiff.pitch eulerAnglesDiff in
     let dpsi := EulerAnglesZyxDiff.yaw eulerAnglesDiff in
     convert eulerAngles eulerAnglesDiff
     = Finite (LocalAngularVelocity.fromComponents
               (dphi - dpsi * sin theta)
               (dtheta * cos phi + dpsi * sin phi * cos theta)
               (- dtheta * sin phi + dpsi * cos phi * cos theta)))
  /\ convert
       ({| EulerAnglesZyx.roll := 0; EulerAnglesZyx.pitch := 0;
           EulerAnglesZyx.yaw := 0 |} : EulerAnglesZyx.t ACTIVE)
       ({| EulerAnglesZyxDiff.roll := 1; EulerAnglesZyxDiff.pitch := 2;
           EulerAnglesZyxDiff.yaw := 3 |} : EulerAnglesZyxDiff.t ACTIVE)
     = Finite (LocalAngularVelocity.fromComponents 1 2 3).
Proof.
  split.
  - intros. reflexivity.
  - unfold convert, convert_EulerAnglesZyx. cbn.
    rewrite sin_0, cos_0. by_coefficients.
Qed.

(** C10. The Euler-ZYX conversion does not read the yaw angle of the
    rotation: two ZYX rotations with the same roll and the same pitch give
    the same angular velocity for every derivative, whatever their yaw
    angles.  In the same way the Euler-XYZ conversion does not read the roll
    angle: two XYZ rotations with the same pitch and the same yaw give the
    same angular velocity. *)
Theorem convert_EulerAngles_ignores_one_angle :
  (forall (eulerAngles eulerAngles' : EulerAnglesZyx.t ACTIVE)
     (eulerAnglesDiff : EulerAnglesZyxDiff.t ACTIVE),
     EulerAnglesZyx.roll eulerAngles = EulerAnglesZyx.roll eulerAngles' ->
     EulerAnglesZyx.pitch eulerAngles = EulerAnglesZyx.pitch eulerAngles' ->
     convert eulerAngles eulerAnglesDiff = convert eulerAngles' eulerAnglesDiff)
  /\ (forall (eulerAngles eulerAngles' : EulerAnglesXyz.t ACTIVE)
       (eulerAnglesDiff : EulerAnglesXyzDiff.t ACTIVE),
       EulerAnglesXyz.pitch eulerAngles = EulerAnglesXyz.pitch eulerAngles' ->
       EulerAnglesXyz.yaw eulerAngles = EulerAnglesXyz.yaw eulerAngles' ->
       convert eulerAngles eulerAnglesDiff = convert eulerAngles' eulerAnglesDiff).
Proof.
  split; intros e e' d H1 H2;
    unfold convert, convert_EulerAnglesZyx, convert_EulerAnglesXyz;
    rewrite H1, H2; reflexivity.
Qed.

(** C10 at ZYX rotations with yaw 1 and yaw 5 (pitch 2, roll 3), and at XYZ
    rotations with roll 1 and roll 5 (pitch 2, yaw 3). *)
Lemma convert_EulerAngles_ignores_one_angle_witness :
  (forall eulerAnglesDiff : EulerAnglesZyxDiff.t ACTIVE,
     convert (EulerAnglesZyx.mk (Usage_ := ACTIVE) 1 2 3) eulerAnglesDiff
     = convert (EulerAnglesZyx.mk (Usage_ := ACTIVE) 5 2 3) eulerAnglesDiff)
  /\ (forall eulerAnglesDiff : EulerAnglesXyzDiff.t ACTIVE,
       convert (EulerAnglesXyz.mk (Usage_ := ACTIVE) 1 2 3) eulerAnglesDiff
       = convert (EulerAnglesXyz.mk (Usage_ := ACTIVE) 5 2 3) eulerAnglesDiff).
Proof.
  split; intros d.
  - exact (proj1 convert_EulerAngles_ignores_one_angle
             (EulerAnglesZyx.mk 1 2 3) (EulerAnglesZyx.mk 5 2 3) d
             eq_refl eq_refl).
  - exact (proj2 convert_EulerAngles_ignores_one_angle
             (EulerAnglesXyz.mk 1 2 3) (EulerAnglesXyz.mk 5 2 3) d
             eq_refl eq_refl).
Defined.

(** The Euler-XYZ conversion returns
    w1 = dbeta.sin(gamma) + dalpha.cos(gamma).cos(beta),
    w2 = dbeta.cos(gamma) - dalpha.cos(beta).sin(gamma),
    w3 = dgamma + dalpha.sin(beta)
    for pitch beta, yaw gamma and the rates (dalpha, dbeta, dgamma) of roll,
    pitch and yaw. *)
Theorem convert_EulerAnglesXyz_formula :
  forall (eulerAngles : EulerAnglesXyz.t ACTIVE)
    (eulerAnglesDiff : EulerAnglesXyzDiff.t ACTIVE),
  let beta := EulerAnglesXyz.pitch eulerAngles in
  let gamma := EulerAnglesXyz.yaw eulerAngles in
  let dalpha := EulerAnglesXyzDiff.roll eulerAnglesDiff in
  let dbeta := EulerAnglesXyzDiff.pitch eulerAnglesDiff in
  let dgamma := EulerAnglesXyzDiff.yaw eulerAnglesDiff in
  convert eulerAngles eulerAnglesDiff
  = Finite (LocalAngularVelocity.fromComponents
              (dbeta * sin gamma + dalpha * cos gamma * cos beta)
              (dbeta * cos gamma - dalpha * cos beta * sin gamma)
              (dgamma + dalpha * sin beta)).
Proof.
  intros. reflexivity.
Qed.

(** ** The rotation-matrix and angle-axis conversions *)

(** C7. The passive rotation-matrix conversion forms the matrix
    Omega = transpose(C).dC from the passive rotation matrix C and the
    passive matrix rate dC, returns the vector
    (Omega(2,1), Omega(0,2), Omega(1,0)) of that matrix, and the value it
    returns is tagged ACTIVE although both arguments are PASSIVE. *)
Theorem convert_RotationMatrix_passive_formula :
  forall (rotationMatrix : RotationMatrix.t PASSIVE)
    (rotationMatrixDiff : RotationMatrixDiff.t PASSIVE),
  let C := Eigen.at_ (RotationMatrix.toImplementation rotationMatrix) in
  let dC := Eigen.at_ (RotationMatrixDiff.toImplementation rotationMatrixDiff) in
  let Omega (i j : nat) := C 0%nat i * dC 0%nat j + C 1%nat i * dC 1%nat j
                           + C 2%nat i * dC 2%nat j in
  exists w : LocalAngularVelocity.t ACTIVE,
    convert rotationMatrix rotationMatrixDiff = Finite w
    /\ LocalAngularVelocity.toImplementation w
       = [< Omega 2%nat 1%nat; Omega 0%nat 2%nat; Omega 1%nat 0%nat >]
    /\ LocalAngularVelocity.usage w = ACTIVE
    /\ LocalAngularVelocity.usage w <> PASSIVE.
Proof.
  intros. eexists. split; [reflexivity | ].
  split; [ | split; [reflexivity | discriminate]].
  subst C dC Omega. coefficients. by_coefficients.
Qed.

(** The active rotation-matrix conversion forms the matrix
    Omega = M.transpose(dM) from the active rotation matrix M and the matrix
    rate dM and returns the vector (Omega(2,1), Omega(0,2), Omega(1,0)). *)
Theorem convert_RotationMatrix_active_formula :
  forall (rotationMatrix : RotationMatrix.t ACTIVE)
    (rotationMatrixDiff : RotationMatrixDiff.t ACTIVE),
  let M := Eigen.at_ (RotationMatrix.toImplementation rotationMatrix) in
  let dM := Eigen.at_ (RotationMatrixDiff.toImplementation rotationMatrixDiff) in
  let Omega (i j : nat) := M i 0%nat * dM j 0%nat + M i 1%nat * dM j 1%nat
                           + M i 2%nat * dM j 2%nat in
  convert rotationMatrix rotationMatrixDiff
  = Finite (LocalAngularVelocity.fromComponents
              (Omega 2%nat 1%nat) (Omega 0%nat 2%nat) (Omega 1%nat 0%nat)).
Proof.
  intros. subst M dM Omega. coefficients.
  unfold convert, convert_RotationMatrix_active. by_coefficients.
Qed.


(** ** The geometry of the rotation-vector conversion *)

(** For a magnitude a that is not zero the conversion returns three finite
    components; each of them, multiplied by a^3, is a polynomial in a, sin a,
    cos a and the components of the rotation vector and of its derivative. *)
Lemma convert_RotationVector_coefficients
  (rotationVector : RotationVector.t ACTIVE)
  (rotationVectorDiff : RotationVectorDiff.t ACTIVE) :
  let a := Eigen.norm (RotationVector.vector rotationVector) in
  let v1 := RotationVector.x rotationVector in
  let v2 := RotationVector.y rotationVector in
  let v3 := RotationVector.z rotationVector in
  let d1 := RotationVectorDiff.x rotationVectorDiff in
  let d2 := RotationVectorDiff.y rotationVectorDiff in
  let d3 := RotationVectorDiff.z rotationVectorDiff in
  let s := sin a in
  let c := cos a in
  a <> 0 ->
  exists w1 w2 w3 : Scalar,
    convert rotationVector rotationVectorDiff
    = Finite (LocalAngularVelocity.fromComponents w1 w2 w3)
    /\ 0 < a
    /\ a * a = v1 * v1 + v2 * v2 + v3 * v3
    /\ s * s + c * c = 1
    /\ w1 * (a * a * a)
       = d3*(a*(v1*v3+c*v2-v2)-s*v1*v3)+d1*(s*(a*a)-s*(v1*v1)+(v1*v1)*a)
         +d2*(a*(v1*v2+v3-c*v3)-s*v1*v2)
    /\ w2 * (a * a * a)
       = d1*(a*(v1*v2-v3+c*v3)-s*v1*v2)+d2*(s*(a*a)-s*(v2*v2)+(v2*v2)*a)
         +d3*(a*(v2*v3+v1-c*v1)-s*v2*v3)
    /\ w3 * (a * a * a)
       = d2*(a*(v2*v3-v1+c*v1)-s*v2*v3)+d1*(a*(v1*v3-c*v2+v2)-s*v1*v3)
         +d3*(s*(a*a)-s*(v3*v3)+(v3*v3)*a).
Proof.
  intros a v1 v2 v3 d1 d2 d3 s c Ha.
  destruct (norm_components (RotationVector.vector rotationVector))
    as (H0 & Hsq & _).
  fold a in H0, Hsq.
  unfold convert, convert_RotationVector. fold a.
  rewrite quotient_nonzero
    by (repeat apply Rmult_integral_contrapositive_currified; exact Ha).
  cbn [bind]. fold v1 v2 v3 d1 d2 d3 s c. cbv zeta.
  do 3 eexists. split; [reflexivity | ].
  split; [lra | ].
  split; [rewrite Hsq; unfold v1, v2, v3, RotationVector.x, RotationVector.y,
            RotationVector.z; ring | ].
  split; [pose proof (sin2_cos2 a) as H; unfold Rsqr in H; exact H | ].
  clearbody a v1 v2 v3 d1 d2 d3 s c.
  repeat split; field; exact Ha.
Qed.

(** A rotation vector is the vector of its three components. *)
Lemma RotationVector_components (rotationVector : RotationVector.t ACTIVE) :
  RotationVector.vector rotationVector
  = [< RotationVector.x rotationVector; RotationVector.y rotationVector;
       RotationVector.z rotationVector >].
Proof.
  destruct rotationVector as [[v1 [v2 [v3 []]]]]. reflexivity.
Qed.

(** The sum of the squares of the three numerators. *)
Lemma numerators_square_sum (a s c v1 v2 v3 d1 d2 d3 : R) :
  s * s + c * c = 1 ->
  a * a = v1 * v1 + v2 * v2 + v3 * v3 ->
  let N1 := d3*(a*(v1*v3+c*v2-v2)-s*v1*v3)+d1*(s*(a*a)-s*(v1*v1)+(v1*v1)*a)
            +d2*(a*(v1*v2+v3-c*v3)-s*v1*v2) in
  let N2 := d1*(a*(v1*v2-v3+c*v3)-s*v1*v2)+d2*(s*(a*a)-s*(v2*v2)+(v2*v2)*a)
            +d3*(a*(v2*v3+v1-c*v1)-s*v2*v3) in
  let N3 := d2*(a*(v2*v3-v1+c*v1)-s*v2*v3)+d1*(a*(v1*v3-c*v2+v2)-s*v1*v3)
            +d3*(s*(a*a)-s*(v3*v3)+(v3*v3)*a) in
  let D := d1 * d1 + d2 * d2 + d3 * d3 in
  let P := v1 * d1 + v2 * d2 + v3 * d3 in
  N1 * N1 + N2 * N2 + N3 * N3
  = (a * a) * ((a * a) * (2 * (1 - c) * D) + (a * a - 2 * (1 - c)) * (P * P)).
Proof.
  intros Hsc Ha N1 N2 N3 D P. subst N1 N2 N3 D P. nsatz.
Qed.

(** Cauchy and Schwarz for vectors of size 3. *)
Lemma dot_square_le (v1 v2 v3 d1 d2 d3 : R) :
  (v1 * d1 + v2 * d2 + v3 * d3) * (v1 * d1 + v2 * d2 + v3 * d3)
  <= (v1 * v1 + v2 * v2 + v3 * v3) * (d1 * d1 + d2 * d2 + d3 * d3).
Proof.
  pose proof (Rle_0_sqr (v1 * d2 - v2 * d1)) as H1.
  pose proof (Rle_0_sqr (v2 * d3 - v3 * d2)) as H2.
  pose proof (Rle_0_sqr (v3 * d1 - v1 * d3)) as H3.
  unfold Rsqr in *. lra.
Qed.

Lemma square_nonneg (x : R) : 0 <= x * x.
Proof. exact (Rle_0_sqr x). Qed.

Lemma sum_of_squares_nonneg (x y z : R) : 0 <= x * x + y * y + z * z.
Proof.
  pose proof (square_nonneg x). pose proof (square_nonneg y).
  pose proof (square_nonneg z). lra.
Qed.

(** A mean of two numbers with weights k and 1 - k is at most the larger. *)
Lemma weighted_mean_le (k D Q : R) :
  0 <= k <= 1 -> Q <= D -> k * D + (1 - k) * Q <= D.
Proof.
  intros Hk HQ.
  assert (H : 0 <= (1 - k) * (D - Q)) by (apply Rmult_le_pos; lra).
  lra.
Qed.

(** A product of a positive number with a nonnegative one that is not
    positive leaves the nonnegative one zero. *)
Lemma positive_multiple_zero (K D : R) :
  0 < K -> 0 <= D -> K * D <= 0 -> D = 0.
Proof.
  intros HK HD H.
  destruct HD as [Hlt | <-]; [ | reflexivity].
  pose proof (Rmult_lt_0_compat _ _ HK Hlt). lra.
Qed.

(** A sum of three terms, each linear in a component of the derivative. *)
Lemma linear_in_three_terms (k l t d1 d2 d3 e1 e2 e3 X Y Z : R) :
  (k * d1 + l * e1) * t * X + (k * d2 + l * e2) * t * Y
  + (k * d3 + l * e3) * t * Z
  = k * (d1 * t * X + d2 * t * Y + d3 * t * Z)
    + l * (e1 * t * X + e2 * t * Y + e3 * t * Z).
Proof. ring. Qed.

Lemma cube_nonzero (a : R) : a <> 0 -> a * a * a <> 0.
Proof.
  intros Ha. repeat apply Rmult_integral_contrapositive_currified; exact Ha.
Qed.

Lemma sum_of_squares_zero (x y z : R) :
  x * x + y * y + z * z = 0 -> x = 0 /\ y = 0 /\ z = 0.
Proof.
  intros H.
  pose proof (Rle_0_sqr x) as Hx. pose proof (Rle_0_sqr y) as Hy.
  pose proof (Rle_0_sqr z) as Hz. unfold Rsqr in *.
  repeat split; apply Rsqr_0_uniq; unfold Rsqr; lra.
Qed.

(** Brings in the coefficients of the result of the rotation-vector
    conversion, with names for the magnitude, its sine and cosine and the
    components of the rotation vector and of its derivative. *)
Ltac rotation_vector_coefficients r d Ha :=
  destruct (convert_RotationVector_coefficients r d Ha)
    as (w1 & w2 & w3 & Hw & Hpos & Hsq & Hsc & H1 & H2 & H3);
  cbn [RotationVectorDiff.x RotationVectorDiff.y RotationVectorDiff.z] in *;
  set (a := Eigen.norm (RotationVector.vector r)) in *;
  set (s := sin a) in *; set (c := cos a) in *;
  clearbody s c; clearbody a;
  rewrite ?(RotationVector_components r);
  set (v1 := RotationVector.x r) in *;
  set (v2 := RotationVector.y r) in *;
  set (v3 := RotationVector.z r) in *;
  clearbody v1 v2 v3.











(** ** The angle-axis conversion on a unit axis *)



(** ** One motion through the angle-axis and the rotation-vector conversions *)



(** ** The Euler-angle conversions away from and at gimbal lock *)








(** ** The rotation-matrix conversions on rotation matrices *)

(** The active conversion on the transposes of a matrix and of its rate
    returns what the passive conversion returns on the matrix and its rate
    themselves. *)
Theorem convert_RotationMatrix_active_on_transposes :
  forall M dM : Matrix3x3,
  convert (RotationMatrix.mk (Usage_ := ACTIVE) (Eigen.transpose M))
    (RotationMatrixDiff.mk (Usage_ := ACTIVE) (Eigen.transpose dM))
  = convert (RotationMatrix.mk (Usage_ := PASSIVE) M)
      (RotationMatrixDiff.mk (Usage_ := PASSIVE) dM).
Proof.
  intros M dM. coefficients.
  unfold convert, convert_RotationMatrix_active, convert_RotationMatrix_passive.
  by_coefficients.
Qed.



(** ** The unit-quaternion conversion: magnitude *)


(** ** Linearity of the conversions that have no singular rotation *)


(** ** The arithmetic of [+=] and [-=] *)



(** ** Binary64: when the cube of the magnitude underflows *)

Lemma Prim2SF_one : Prim2SF 1%float = S754_finite false 4503599627370496 (-52).
Proof. reflexivity. Qed.

Lemma div_one_zero (y : float) : zeroOrNaN y -> infinityOrNaN (1 / y)%float.
Proof.
  unfold zeroOrNaN, infinityOrNaN. rewrite div_spec, Prim2SF_one.
  destruct (Prim2SF y); intros H; try contradiction; exact I.
Qed.

Lemma mul_infinityOrNaN_r (x y : float) :
  infinityOrNaN y -> infinityOrNaN (x * y)%float.
Proof.
  unfold infinityOrNaN. rewrite mul_spec.
  destruct (Prim2SF x), (Prim2SF y); intros H; try contradiction; exact I.
Qed.

Lemma mul_infinityOrNaN_l (x y : float) :
  infinityOrNaN x -> infinityOrNaN (x * y)%float.
Proof.
  unfold infinityOrNaN. rewrite mul_spec.
  destruct (Prim2SF x), (Prim2SF y); intros H; try contradiction; exact I.
Qed.

Lemma add_infinityOrNaN (x y : float) :
  infinityOrNaN x -> infinityOrNaN y -> infinityOrNaN (x + y)%float.
Proof.
  unfold infinityOrNaN. rewrite add_spec.
  destruct (Prim2SF x) as [[|]|[|]| |], (Prim2SF y) as [[|]|[|]| |];
    intros Hx Hy; try contradiction; exact I.
Qed.

(** In binary64 the conversion has no finite result as soon as the cube
    v*v*v of the computed magnitude is a zero (or NaN): this is so at the
    zero rotation vector, and also at every rotation vector that is not zero
    but so short that the cube underflows (below about 1e-108).  Whatever
    the derivative is, the zero derivative too, and whatever [sin] and [cos]
    return, every component of the result is an infinity or NaN. *)
Theorem double_cube_underflow_is_not_finite :
  forall (sin cos : float -> float) (v1 v2 v3 dv1 dv2 dv3 : float),
  let v := PrimFloat.sqrt (v1 * v1 + v2 * v2 + v3 * v3)%float in
  zeroOrNaN (v * v * v)%float ->
  let '(w1, w2, w3) :=
    convert_RotationVector_double sin cos v1 v2 v3 dv1 dv2 dv3 in
  infinityOrNaN w1 /\ infinityOrNaN w2 /\ infinityOrNaN w3.
Proof.
  intros sin cos v1 v2 v3 dv1 dv2 dv3 v Hcube.
  unfold convert_RotationVector_double. cbv zeta. fold v.
  pose proof (div_one_zero _ Hcube) as Ht2.
  set (t2 := (1 / (v * v * v))%float) in *. clearbody t2.
  repeat split;
    repeat apply add_infinityOrNaN;
    apply mul_infinityOrNaN_l; apply mul_infinityOrNaN_r; exact Ht2.
Qed.

(** At the rotation vector (2^-400, 0, 0), of magnitude about 3.9e-121, with
    the derivative (1, 2, 3), and with two functions of binary64 in the place
    of [sin] and [cos], which the result does not depend on. *)
Lemma double_cube_underflow_is_not_finite_witness :
  let '(w1, w2, w3) :=
    convert_RotationVector_double (fun x => x) (fun _ => 1%float)
      0x1p-400 0 0 1 2 3 in
  infinityOrNaN w1 /\ infinityOrNaN w2 /\ infinityOrNaN w3.
Proof.
  apply (double_cube_underflow_is_not_finite (fun x => x) (fun _ => 1%float)
           0x1p-400 0 0 1 2 3)%float.
  vm_compute. exact I.
Defined.
